(** * The JNI load hook of react-native-ondevice-ai

    Source: libraries/react-native-ondevice-ai/android/src/main/cpp/cpp-adapter.cpp

    After including jni.h, the translation unit removes the preprocessor
    macros ANDROID and IOS when they are defined (directives, with no
    behaviour at run time), includes NitroOndeviceAiOnLoad.hpp and defines one
    function, [JNI_OnLoad], whose body is the single statement
    [return margelo::nitro::ondeviceai::initialize(vm);].

    The callee is only declared here, so the hook is embedded as an
    interaction tree that performs the call as an event.  The event gets its
    meaning afterwards from a handler over an arbitrary behaviour of the
    callee: it may return any status, change the host runtime, raise a C++
    exception or never return. *)

From Stdlib Require Import ZArith List Lia String.
From ITree Require Import ITree ITreeFacts Events.State Events.StateFacts
  Events.Exception.
From Paco Require Import paco.
Import ITreeNotations ListNotations.
Local Open Scope itree_scope.
Local Open Scope Z_scope.

Set Implicit Arguments.

(** ** Values that cross the boundary (jni.h) *)

Module Jni.

(** [JavaVM*]: an address inside the host runtime; the hook never
    dereferences it. *)
Definition JavaVM_ptr : Type := Z.

(** [void*]: the reserved second argument of [JNI_OnLoad]. *)
Definition void_ptr : Type := Z.

(** [jint]: a 32-bit signed integer.  The hook performs no arithmetic on
    it, so no wrap-around is ever applied. *)
Definition jint : Type := Z.

Definition NULL : Z := 0.

Definition JNI_ERR : jint := -1.
Definition JNI_EINVAL : jint := -6.
Definition JNI_VERSION_1_2 : jint := 0x00010002.
Definition JNI_VERSION_1_4 : jint := 0x00010004.
Definition JNI_VERSION_1_6 : jint := 0x00010006.



(** The versions a [JNI_OnLoad] may answer for the Android runtime to
    accept the library. *)
Definition load_succeeds (code : jint) : bool :=
  existsb (Z.eqb code) [JNI_VERSION_1_2; JNI_VERSION_1_4; JNI_VERSION_1_6].

End Jni.
Import Jni.

(** ** The external collaborator *)

Module ondeviceai.

(** The one call the translation unit makes:
    [margelo::nitro::ondeviceai::initialize(vm)], answering a [jint]. *)
Variant nitroE : Type -> Type :=
| initialize (vm : JavaVM_ptr) : nitroE jint.

End ondeviceai.
Import ondeviceai.

(** ** The hook

    The source function takes the virtual-machine handle [vm] and a second,
    unnamed pointer parameter, and its whole body is
    [return margelo::nitro::ondeviceai::initialize(vm);]. *)
Definition JNI_OnLoad (vm : JavaVM_ptr) (_ : void_ptr) : itree nitroE jint :=
  ITree.trigger (initialize vm).

(** ** Running the hook inside a process *)

(** What a run can observe of the process: the state of the host runtime
    (everything reachable through a [JavaVM*]) and the log of the calls made
    to the initializer, oldest first.  The translation unit declares no
    global and no static, so there is no store of the shim's own. *)
Record Process (Host : Type) : Type := mkProcess {
  host : Host;
  calls : list JavaVM_ptr
}.

Section Run.

(** The state of the host runtime and the C++ exceptions that may fly. *)
Variables (Host Exn : Type).

(** The behaviour of the initializer: from the handle it is given and the
    state of the host it computes a new host state and a status, or raises,
    or never returns. *)
Variable impl : JavaVM_ptr -> Host -> itree (exceptE Exn) (Host * jint).

(** One call of the initializer: it is logged with the handle it received
    once it returns. *)
Definition call_initialize (vm : JavaVM_ptr) (p : Process Host)
  : itree (exceptE Exn) (Process Host * jint) :=
  ITree.bind (impl vm (host p))
    (fun out => Ret (mkProcess (fst out) (calls p ++ [vm]), snd out)).

Definition h_call : nitroE ~> Monads.stateT (Process Host) (itree (exceptE Exn)) :=
  fun _ e p =>
    match e in nitroE T return itree (exceptE Exn) (Process Host * T) with
    | initialize vm => call_initialize vm p
    end.

(** The hook run in process state [p]. *)
Definition run_hook (vm : JavaVM_ptr) (reserved : void_ptr) (p : Process Host)
  : itree (exceptE Exn) (Process Host * jint) :=
  interp_state h_call (JNI_OnLoad vm reserved) p.

(** Outcomes of a computation. *)
Definition returns {R} (t : itree (exceptE Exn) R) (x : R) : Prop :=
  t ≈ Ret x.

Definition throws {R} (t : itree (exceptE Exn) R) (e : Exn) : Prop :=
  t ≈ throw e.

Definition diverges {R} (t : itree (exceptE Exn) R) : Prop :=
  t ≈ ITree.spin.

Definition halts {R} (t : itree (exceptE Exn) R) : Prop :=
  (exists x, returns t x) \/ (exists e, throws t e).

End Run.

(** ** Some initializers

    The host state of these examples is the number of hybrid objects the
    native module has registered so far; exceptions carry a message. *)

(** Registers one more object and answers the JNI version it was built for. *)
Definition registering_initializer (_ : JavaVM_ptr) (registered : nat)
  : itree (exceptE string) (nat * jint) :=
  Ret (S registered, JNI_VERSION_1_6).

(** Touches nothing and reports an error. *)
Definition failing_initializer (_ : JavaVM_ptr) (registered : nat)
  : itree (exceptE string) (nat * jint) :=
  Ret (registered, JNI_ERR).

(** Fails the first time it is called and succeeds from then on. *)
Definition flaky_initializer (_ : JavaVM_ptr) (registered : nat)
  : itree (exceptE string) (nat * jint) :=
  match registered with
  | O => Ret (1%nat, JNI_ERR)
  | S _ => Ret (registered, JNI_VERSION_1_6)
  end.

(** Answers a number that jni.h has no name for. *)
Definition odd_initializer (_ : JavaVM_ptr) (registered : nat)
  : itree (exceptE string) (nat * jint) :=
  Ret (registered, 12345).

(** Checks the handle itself: a null handle is an invalid argument. *)
Definition checking_initializer (vm : JavaVM_ptr) (registered : nat)
  : itree (exceptE string) (nat * jint) :=
  if vm =? NULL then Ret (registered, JNI_EINVAL)
  else Ret (S registered, JNI_VERSION_1_6).

(** Raises instead of answering. *)
Definition throwing_initializer (_ : JavaVM_ptr) (_ : nat)
  : itree (exceptE string) (nat * jint) :=
  throw "initialize failed"%string.

(** Never answers. *)
Definition hanging_initializer (_ : JavaVM_ptr) (_ : nat)
  : itree (exceptE string) (nat * jint) :=
  ITree.spin.

(** A process that has loaded nothing yet, and a handle. *)
Definition fresh : Process nat := mkProcess 0%nat [].
Definition some_vm : JavaVM_ptr := 0x7f001000.

(** ** The memory the code of the unit could write

    Besides calling the initializer, the code of a translation unit could
    write memory: a global or a static of its own, or a cell reached through
    a pointer it was handed.  [store] is such a write.  A run keeps the
    journal of the writes made by the code of the unit itself, oldest first;
    what the initializer writes is not the unit's and is part of what [impl]
    does to the host state. *)
Variant memE : Type -> Type :=
| store (addr : Z) (word : Z) : memE unit.

Record Machine (Host : Type) : Type := mkMachine {
  proc : Process Host;
  writes : list (Z * Z)
}.

Section RunUnit.

Variables (Host Exn : Type).
Variable impl : JavaVM_ptr -> Host -> itree (exceptE Exn) (Host * jint).

(** A call of the initializer leaves the journal as it is. *)
Definition h_call_unit
  : nitroE ~> Monads.stateT (Machine Host) (itree (exceptE Exn)) :=
  fun _ e m =>
    ITree.bind (h_call impl e (proc m))
      (fun out => Ret (mkMachine (fst out) (writes m), snd out)).

(** A write is entered in the journal. *)
Definition h_store
  : memE ~> Monads.stateT (Machine Host) (itree (exceptE Exn)) :=
  fun _ e m =>
    match e in memE T return itree (exceptE Exn) (Machine Host * T) with
    | store addr word =>
        Ret (mkMachine (proc m) (writes m ++ [(addr, word)]), tt)
    end.

Definition h_unit
  : (nitroE +' memE) ~> Monads.stateT (Machine Host) (itree (exceptE Exn)) :=
  fun _ e =>
    match e with
    | inl1 c => h_call_unit c
    | inr1 w => h_store w
    end.

(** Code of the unit run in machine state [m]. *)
Definition run_unit {R} (t : itree (nitroE +' memE) R) (m : Machine Host)
  : itree (exceptE Exn) (Machine Host * R) :=
  interp_state h_unit t m.

End RunUnit.

(** The hook among code that may write: the same tree, its one event read
    in the larger signature. *)
Definition JNI_OnLoad_in_unit (vm : JavaVM_ptr) (reserved : void_ptr)
  : itree (nitroE +' memE) jint :=
  translate (@inl1 nitroE memE) (JNI_OnLoad vm reserved).

(** For contrast only, and not the source's: a hook that would keep the
    handle in a static of its own before forwarding it. *)
Definition keeping_hook (vm : JavaVM_ptr) (_ : void_ptr)
  : itree (nitroE +' memE) jint :=
  ITree.bind (ITree.trigger (inr1 (store 0x1000 vm)))
             (fun _ => ITree.trigger (inl1 (initialize vm))).

(** ** The preprocessor directives

    Between the inclusion of jni.h and that of NitroOndeviceAiOnLoad.hpp the
    source has two guarded removals: [#ifdef ANDROID], [#undef ANDROID],
    [#endif], and the same three lines for [IOS]. *)

(** The object-like macros in force at a point of the translation unit, the
    latest definition first: a name and its replacement text. *)
Definition Macros : Type := list (string * string).

(** The replacement text of a name, if it is defined. *)
Fixpoint replacement (name : string) (ms : Macros) : option string :=
  match ms with
  | [] => None
  | (n, body) :: rest =>
      if String.eqb name n then Some body else replacement name rest
  end.

(** The test of [#ifdef name]. *)
Definition is_defined (name : string) (ms : Macros) : bool :=
  match replacement name ms with
  | Some _ => true
  | None => false
  end.

(** [#undef name]: the name has no definition afterwards. *)
Definition undef (name : string) (ms : Macros) : Macros :=
  filter (fun m => negb (String.eqb name (fst m))) ms.

(** [#ifdef name], a group of directives, [#endif]. *)
Definition ifdef (name : string) (group : Macros -> Macros) (ms : Macros)
  : Macros :=
  if is_defined name ms then group ms else ms.

(** Lines 3 to 8 of the source, in their order. *)
Definition undef_platform_macros (ms : Macros) : Macros :=
  let ms := ifdef "ANDROID" (undef "ANDROID") ms in
  ifdef "IOS" (undef "IOS") ms.

(** What a build for Android may have in force after jni.h (the quotes
    inside the attribute left out). *)
Definition android_build : Macros :=
  [ ("JNIEXPORT", "__attribute__ ((visibility (default)))");
    ("ANDROID", "1"); ("__ANDROID__", "1") ]%string.

(** * Properties *)

Unset Implicit Arguments.

Section Facts.

Variables (Host Exn : Type).
Variable impl : JavaVM_ptr -> Host -> itree (exceptE Exn) (Host * jint).

(** *** Generic facts about outcomes *)

Lemma returns_unique {R} (t : itree (exceptE Exn) R) x y :
  returns t x -> returns t y -> x = y.
Proof.
  unfold returns. intros Hx Hy.
  apply (@eutt_inv_Ret (exceptE Exn) R). rewrite <- Hx, <- Hy. reflexivity.
Qed.

Lemma returns_not_throws {R} (t : itree (exceptE Exn) R) x e :
  returns t x -> ~ throws t e.
Proof.
  unfold returns, throws. intros Hx He.
  rewrite Hx in He. unfold throw in He.
  apply eqit_inv in He. cbn in He. exact He.
Qed.

Lemma returns_not_diverges {R} (t : itree (exceptE Exn) R) x :
  returns t x -> ~ diverges t.
Proof.
  unfold returns, diverges. intros Hx Hd.
  rewrite Hx in Hd. exact (eutt_Ret_spin_abs _ Hd).
Qed.

(** A computation that hangs hangs whatever is to follow it. *)
Lemma bind_spin {E A B} (k : A -> itree E B) :
  ITree.bind (@ITree.spin E A) k ≈ ITree.spin.
Proof.
  pcofix CIH. pstep. red. cbn. constructor. right. apply CIH.
Qed.

(** *** The run is the call *)

Lemma run_hook_call vm reserved p :
  run_hook impl vm reserved p ≈ call_initialize impl vm p.
Proof.
  unfold run_hook, JNI_OnLoad. rewrite interp_state_trigger. reflexivity.
Qed.

(** The whole tree of the hook: one call, then its answer; no silent step. *)
Lemma JNI_OnLoad_shape vm reserved :
  JNI_OnLoad vm reserved ≅ Vis (initialize vm) (fun code => Ret code).
Proof. unfold JNI_OnLoad, ITree.trigger. reflexivity. Qed.

Lemma JNI_OnLoad_not_ret vm reserved code :
  ~ JNI_OnLoad vm reserved ≈ Ret code.
Proof.
  intros H. rewrite JNI_OnLoad_shape in H.
  apply eqit_inv in H. cbn in H. exact H.
Qed.

(** *** Outcomes of one call *)

Lemma call_returns vm p h' code :
  returns (impl vm (host p)) (h', code) ->
  returns (call_initialize impl vm p) (mkProcess h' (calls p ++ [vm]), code).
Proof.
  unfold returns, call_initialize. intros H.
  rewrite H, bind_ret_l. reflexivity.
Qed.

Lemma call_returns_inv vm p p' code :
  returns (call_initialize impl vm p) (p', code) ->
  returns (impl vm (host p)) (host p', code) /\ calls p' = calls p ++ [vm].
Proof.
  unfold returns, call_initialize. intros H.
  apply eutt_inv_bind_ret in H. destruct H as [[h' c] [Himpl Hk]].
  apply eutt_inv_Ret in Hk. cbn in Hk. inversion Hk; subst. cbn. auto.
Qed.

Lemma call_throws vm p e :
  throws (impl vm (host p)) e -> throws (call_initialize impl vm p) e.
Proof.
  unfold throws, call_initialize, throw. intros H.
  rewrite H, bind_vis. apply eqit_Vis. intros [].
Qed.

Lemma call_throws_inv vm p e :
  throws (call_initialize impl vm p) e -> throws (impl vm (host p)) e.
Proof.
  unfold throws, call_initialize, throw. intros H.
  apply eutt_inv_bind_vis in H. destruct H as [[k [Himpl _]] | [out [_ Hk]]].
  - rewrite Himpl. apply eqit_Vis. intros [].
  - apply eqit_inv in Hk. cbn in Hk. contradiction.
Qed.

(** Forgetting the log, a call is the initializer's behaviour. *)
Lemma call_forget_log vm p :
  ITree.map (fun out => (host (fst out), snd out)) (call_initialize impl vm p)
  ≈ impl vm (host p).
Proof.
  unfold call_initialize, ITree.map.
  rewrite bind_bind. setoid_rewrite bind_ret_l. cbn.
  rewrite <- (bind_ret_r (impl vm (host p))) at 2.
  apply eqit_bind; [reflexivity|]. intros [h' code]. reflexivity.
Qed.

Lemma call_diverges_iff vm p :
  diverges (call_initialize impl vm p) <-> diverges (impl vm (host p)).
Proof.
  unfold diverges. split; intros H.
  - rewrite <- call_forget_log, H. unfold ITree.map. apply bind_spin.
  - unfold call_initialize. rewrite H. apply bind_spin.
Qed.

(** *** Outcomes of a run of the hook *)

Lemma run_returns vm reserved p h' code :
  returns (impl vm (host p)) (h', code) ->
  returns (run_hook impl vm reserved p) (mkProcess h' (calls p ++ [vm]), code).
Proof.
  intros H. unfold returns. rewrite run_hook_call.
  apply call_returns, H.
Qed.

Lemma run_returns_inv vm reserved p p' code :
  returns (run_hook impl vm reserved p) (p', code) ->
  returns (impl vm (host p)) (host p', code) /\ calls p' = calls p ++ [vm].
Proof.
  unfold returns at 1. rewrite run_hook_call. apply call_returns_inv.
Qed.

Lemma run_throws_iff vm reserved p e :
  throws (run_hook impl vm reserved p) e <-> throws (impl vm (host p)) e.
Proof.
  unfold throws at 1. rewrite run_hook_call. split.
  - apply call_throws_inv.
  - apply call_throws.
Qed.

Lemma run_diverges_iff vm reserved p :
  diverges (run_hook impl vm reserved p) <-> diverges (impl vm (host p)).
Proof.
  unfold diverges at 1. rewrite run_hook_call. apply call_diverges_iff.
Qed.

(** The status a run answers, the process state forgotten. *)
Lemma run_status vm reserved p :
  ITree.map snd (run_hook impl vm reserved p) ≈ ITree.map snd (impl vm (host p)).
Proof.
  rewrite run_hook_call. unfold call_initialize, ITree.map.
  rewrite bind_bind. setoid_rewrite bind_ret_l. reflexivity.
Qed.

(** ** The claims *)

(** C1: called with a handle [vm], the hook calls the initializer with
    exactly [vm] and answers exactly what the initializer answers: its tree
    is that one call followed by the return of its answer, and when the
    initializer, called with [vm] in the current host state, returns [code],
    the run returns [code] with [vm] the one handle logged. *)
Theorem JNI_OnLoad_forwards vm reserved p h' code
  (Hinit : returns (impl vm (host p)) (h', code)) :
  JNI_OnLoad vm reserved ≅ Vis (initialize vm) (fun answer => Ret answer) /\
  returns (run_hook impl vm reserved p)
          (mkProcess h' (calls p ++ [vm]), code).
Proof.
  split.
  - apply JNI_OnLoad_shape.
  - apply run_returns, Hinit.
Qed.

(** C2: whatever integer the initializer returns, the run of the hook
    returns too (so it is total when the initializer is), raises no
    exception, does not hang, and can return no other integer. *)
Theorem JNI_OnLoad_safe vm reserved p h' code
  (Hinit : returns (impl vm (host p)) (h', code)) :
  (exists p', returns (run_hook impl vm reserved p) (p', code)) /\
  (forall e, ~ throws (run_hook impl vm reserved p) e) /\
  ~ diverges (run_hook impl vm reserved p) /\
  (forall p'' code', returns (run_hook impl vm reserved p) (p'', code') ->
                     code' = code).
Proof.
  pose proof (run_returns vm reserved p h' code Hinit) as Hrun.
  split; [|split; [|split]].
  - eexists. exact Hrun.
  - intros e. eapply returns_not_throws, Hrun.
  - eapply returns_not_diverges, Hrun.
  - intros p'' code' H'.
    pose proof (returns_unique _ _ _ Hrun H') as E. inversion E. reflexivity.
Qed.

(** C3: when the initializer returns a status that is not a success, under
    any reading [success] of the statuses, the run of the hook returns that
    very status, still not a success, in the host state that the one failed
    call left: nothing is retried, repaired or replaced. *)
Theorem JNI_OnLoad_failure_verbatim (success : jint -> bool)
  vm reserved p h' code
  (Hfail : success code = false)
  (Hinit : returns (impl vm (host p)) (h', code)) :
  returns (run_hook impl vm reserved p)
          (mkProcess h' (calls p ++ [vm]), code) /\
  (forall p' code', returns (run_hook impl vm reserved p) (p', code') ->
     code' = code /\ success code' = false /\
     host p' = h' /\ calls p' = calls p ++ [vm]).
Proof.
  pose proof (run_returns vm reserved p h' code Hinit) as Hrun.
  split; [exact Hrun|].
  intros p' code' H'.
  pose proof (returns_unique _ _ _ Hrun H') as E. inversion E; subst. cbn. auto.
Qed.

(** C4: one invocation of the hook calls the initializer exactly once,
    whatever status the initializer reports: the hook's tree is one call
    node and the return of its answer; when the initializer returns, so does
    the run, with the call log grown by one entry, the handle the hook was
    given; and no run that returns leaves any other log. *)
Theorem JNI_OnLoad_calls_once vm reserved p h' code
  (Hinit : returns (impl vm (host p)) (h', code)) :
  JNI_OnLoad vm reserved ≅ Vis (initialize vm) (fun answer => Ret answer) /\
  returns (run_hook impl vm reserved p)
          (mkProcess h' (calls p ++ [vm]), code) /\
  (forall p' code', returns (run_hook impl vm reserved p) (p', code') ->
     calls p' = calls p ++ [vm] /\
     List.length (calls p') = S (List.length (calls p))).
Proof.
  split; [apply JNI_OnLoad_shape|].
  split; [apply run_returns, Hinit|].
  intros p' code' Hrun.
  apply run_returns_inv in Hrun. destruct Hrun as [_ Hlog].
  split; [exact Hlog|].
  rewrite Hlog, List.length_app. cbn. lia.
Qed.

(** The hook among code that may write is its one call, the journal of
    the unit's writes carried along untouched. *)
Lemma run_unit_hook vm reserved m :
  run_unit impl (JNI_OnLoad_in_unit vm reserved) m
  ≈ ITree.bind (call_initialize impl vm (proc m))
      (fun out => Ret (mkMachine (fst out) (writes m), snd out)).
Proof.
  unfold run_unit, JNI_OnLoad_in_unit, JNI_OnLoad, ITree.trigger.
  rewrite translate_vis, interp_state_vis. cbn.
  unfold h_call_unit. cbn. rewrite bind_bind.
  apply eqit_bind; [reflexivity|]. intros out.
  rewrite bind_ret_l. cbn.
  rewrite tau_eutt, translate_ret, interp_state_ret. reflexivity.
Qed.

(** C5: the hook neither stores nor mutates the handle.  Run among code
    that may write memory, with the journal of the unit's own writes kept,
    the hook returns whenever the initializer does, the journal is then
    what it was (nothing was written: no copy of the handle kept, nothing
    changed through it), and the host state is the one the initializer's
    own call left. *)
Theorem JNI_OnLoad_frame vm reserved m h' code
  (Hinit : returns (impl vm (host (proc m))) (h', code)) :
  returns (run_unit impl (JNI_OnLoad_in_unit vm reserved) m)
          (mkMachine (mkProcess h' (calls (proc m) ++ [vm])) (writes m), code) /\
  (forall m' code',
     returns (run_unit impl (JNI_OnLoad_in_unit vm reserved) m) (m', code') ->
     writes m' = writes m /\ host (proc m') = h' /\ code' = code).
Proof.
  assert (Hrun : returns (run_unit impl (JNI_OnLoad_in_unit vm reserved) m)
            (mkMachine (mkProcess h' (calls (proc m) ++ [vm])) (writes m), code)).
  { unfold returns. rewrite run_unit_hook.
    pose proof (call_returns vm (proc m) h' code Hinit) as Hcall.
    unfold returns in Hcall. rewrite Hcall, bind_ret_l. reflexivity. }
  split; [exact Hrun|].
  intros m' code' H'.
  pose proof (returns_unique _ _ _ Hrun H') as E. inversion E; subst. cbn. auto.
Qed.


(** C7: the hook's own tree is one call and a return, with no silent step
    and no loop, and a run of the hook comes to an end (returns or raises)
    exactly when the forwarded call does, and hangs exactly when the
    forwarded call does. *)
Theorem JNI_OnLoad_halts_iff vm reserved p :
  JNI_OnLoad vm reserved ≅ Vis (initialize vm) (fun answer => Ret answer) /\
  (halts (run_hook impl vm reserved p) <-> halts (impl vm (host p))) /\
  (diverges (run_hook impl vm reserved p) <-> diverges (impl vm (host p))).
Proof.
  split; [apply JNI_OnLoad_shape|].
  split; [|apply run_diverges_iff].
  unfold halts. split.
  - intros [[[p' code] Hret] | [e Hthrow]].
    + left. exists (host p', code). eapply run_returns_inv, Hret.
    + right. exists e. apply run_throws_iff in Hthrow. exact Hthrow.
  - intros [[[h' code] Hret] | [e Hthrow]].
    + left. eexists. apply run_returns, Hret.
    + right. exists e. apply run_throws_iff. exact Hthrow.
Qed.

(** C8: two runs of the hook with the same handle, from process states
    that may differ in everything (earlier calls included), answer the
    same status whenever the initializer behaves the same in both. *)
Theorem JNI_OnLoad_stateless vm reserved p1 p2
  (Hsame : ITree.map snd (impl vm (host p1)) ≈ ITree.map snd (impl vm (host p2))) :
  ITree.map snd (run_hook impl vm reserved p1)
  ≈ ITree.map snd (run_hook impl vm reserved p2).
Proof.
  rewrite !run_status. exact Hsame.
Qed.

(** C9: the reserved argument is ignored: two invocations that differ only
    in it are the same tree, and so the same run. *)
Theorem JNI_OnLoad_ignores_reserved vm reserved1 reserved2 p :
  JNI_OnLoad vm reserved1 = JNI_OnLoad vm reserved2 /\
  run_hook impl vm reserved1 p = run_hook impl vm reserved2 p.
Proof. split; reflexivity. Qed.

(** C10: the hook checks nothing.  Every handle, null or not, is handed
    to the initializer as it is: whenever the initializer returns for a
    handle, the run of the hook returns its answer with that handle logged,
    for the null handle as for any other; and for no handle does the hook
    answer by itself, its tree being the call and nothing else. *)
Theorem JNI_OnLoad_no_validation vm reserved p h' code
  (Hinit : returns (impl vm (host p)) (h', code)) :
  returns (run_hook impl vm reserved p)
          (mkProcess h' (calls p ++ [vm]), code) /\
  (forall h0 code0, returns (impl NULL (host p)) (h0, code0) ->
     returns (run_hook impl NULL reserved p)
             (mkProcess h0 (calls p ++ [NULL]), code0)) /\
  (forall vm', JNI_OnLoad vm' reserved
               ≅ Vis (initialize vm') (fun answer => Ret answer)) /\
  (forall vm' answer, ~ JNI_OnLoad vm' reserved ≈ Ret answer).
Proof.
  split; [apply run_returns, Hinit|].
  split; [intros h0 code0 H0; apply run_returns, H0|].
  split.
  - intros vm'. apply JNI_OnLoad_shape.
  - intros vm' answer. apply JNI_OnLoad_not_ret.
Qed.

End Facts.

(** * The claims at concrete initializers *)

(** The outcomes of the example initializers. *)

Lemma registering_returns vm n :
  returns (registering_initializer vm n) (S n, JNI_VERSION_1_6).
Proof. unfold returns, registering_initializer. reflexivity. Qed.

Lemma failing_returns vm n :
  returns (failing_initializer vm n) (n, JNI_ERR).
Proof. unfold returns, failing_initializer. reflexivity. Qed.


Lemma odd_returns vm n :
  returns (odd_initializer vm n) (n, 12345).
Proof. unfold returns, odd_initializer. reflexivity. Qed.

(** C1, success scenario: the initializer registers its object and answers
    [JNI_VERSION_1_6]; so does the hook, having called it with [some_vm]. *)
Lemma JNI_OnLoad_forwards_witness :
  returns (registering_initializer some_vm (host fresh)) (1%nat, JNI_VERSION_1_6) /\
  returns (run_hook registering_initializer some_vm NULL fresh)
          (mkProcess 1%nat [some_vm], JNI_VERSION_1_6).
Proof.
  split.
  - apply registering_returns.
  - apply (JNI_OnLoad_forwards nat string registering_initializer
             some_vm NULL fresh 1%nat JNI_VERSION_1_6).
    apply registering_returns.
Defined.

(** C2 at a status that is neither a version nor an error code. *)
Lemma JNI_OnLoad_safe_witness :
  returns (odd_initializer some_vm (host fresh)) (0%nat, 12345) /\
  (exists p', returns (run_hook odd_initializer some_vm NULL fresh) (p', 12345)) /\
  (forall e, ~ throws (run_hook odd_initializer some_vm NULL fresh) e).
Proof.
  split.
  - apply odd_returns.
  - pose proof (JNI_OnLoad_safe nat string odd_initializer
                  some_vm NULL fresh 0%nat 12345 (odd_returns some_vm 0%nat)) as H.
    split; [exact (proj1 H) | exact (proj1 (proj2 H))].
Defined.

(** C3, failure scenario: the first call of the flaky initializer fails; a
    second call would succeed, and the hook does not make it. *)
Lemma JNI_OnLoad_failure_verbatim_witness :
  load_succeeds JNI_ERR = false /\
  returns (flaky_initializer some_vm (host fresh)) (1%nat, JNI_ERR) /\
  returns (flaky_initializer some_vm 1%nat) (1%nat, JNI_VERSION_1_6) /\
  returns (run_hook flaky_initializer some_vm NULL fresh)
          (mkProcess 1%nat [some_vm], JNI_ERR).
Proof.
  assert (H0 : returns (flaky_initializer some_vm (host fresh)) (1%nat, JNI_ERR))
    by (unfold returns; reflexivity).
  split; [reflexivity|]. split; [exact H0|]. split.
  - unfold returns. reflexivity.
  - exact (proj1 (JNI_OnLoad_failure_verbatim nat string flaky_initializer
                    load_succeeds some_vm NULL fresh 1%nat JNI_ERR eq_refl H0)).
Defined.

(** C4 at an initializer that answers an error. *)
Lemma JNI_OnLoad_calls_once_witness :
  returns (failing_initializer some_vm (host fresh)) (0%nat, JNI_ERR) /\
  returns (run_hook failing_initializer some_vm NULL fresh)
          (mkProcess 0%nat [some_vm], JNI_ERR).
Proof.
  split; [apply failing_returns|].
  exact (proj1 (proj2 (JNI_OnLoad_calls_once nat string failing_initializer
                         some_vm NULL fresh 0%nat JNI_ERR
                         (failing_returns some_vm 0%nat)))).
Defined.

(** C5 in a machine whose unit has written before: the journal is the same
    after the hook, though the initializer has changed the host state. *)
Lemma JNI_OnLoad_frame_witness :
  returns (registering_initializer some_vm 2%nat) (3%nat, JNI_VERSION_1_6) /\
  returns (run_unit registering_initializer (JNI_OnLoad_in_unit some_vm NULL)
             (mkMachine (mkProcess 2%nat [some_vm]) [(0x2000, 7)]))
          (mkMachine (mkProcess 3%nat [some_vm; some_vm]) [(0x2000, 7)],
           JNI_VERSION_1_6).
Proof.
  split; [apply registering_returns|].
  exact (proj1 (JNI_OnLoad_frame nat string registering_initializer
                  some_vm NULL (mkMachine (mkProcess 2%nat [some_vm]) [(0x2000, 7)])
                  3%nat JNI_VERSION_1_6 (registering_returns some_vm 2%nat))).
Defined.

(** The journal does tell a hook that keeps the handle from the source's:
    the contrasting hook leaves its write in it. *)
Lemma keeping_hook_is_seen :
  returns (run_unit failing_initializer (keeping_hook some_vm NULL)
             (mkMachine fresh []))
          (mkMachine (mkProcess 0%nat [some_vm]) [(0x1000, some_vm)], JNI_ERR).
Proof.
  unfold returns, run_unit, keeping_hook.
  rewrite interp_state_bind, interp_state_trigger. cbn.
  rewrite bind_ret_l. cbn.
  rewrite interp_state_trigger. cbn. unfold h_call_unit. cbn.
  unfold call_initialize, failing_initializer. cbn.
  rewrite !bind_ret_l. reflexivity.
Qed.



(** C8 at two processes with different host states and call histories. *)
Lemma JNI_OnLoad_stateless_witness :
  ITree.map snd (run_hook failing_initializer some_vm NULL fresh)
  ≈ ITree.map snd (run_hook failing_initializer some_vm NULL
                     (mkProcess 3%nat [some_vm; some_vm])).
Proof.
  apply (JNI_OnLoad_stateless nat string failing_initializer some_vm NULL fresh
           (mkProcess 3%nat [some_vm; some_vm])).
  unfold failing_initializer, ITree.map. rewrite !bind_ret_l. reflexivity.
Defined.

(** C10 at a handle that is not null and at the null handle: both reach
    the initializer, which is the one that rejects the second. *)
Lemma JNI_OnLoad_no_validation_witness :
  returns (checking_initializer some_vm (host fresh)) (1%nat, JNI_VERSION_1_6) /\
  returns (run_hook checking_initializer some_vm NULL fresh)
          (mkProcess 1%nat [some_vm], JNI_VERSION_1_6) /\
  returns (run_hook checking_initializer NULL NULL fresh)
          (mkProcess 0%nat [NULL], JNI_EINVAL).
Proof.
  assert (H : returns (checking_initializer some_vm (host fresh))
                      (1%nat, JNI_VERSION_1_6))
    by (unfold returns; reflexivity).
  pose proof (JNI_OnLoad_no_validation nat string checking_initializer
                some_vm NULL fresh 1%nat JNI_VERSION_1_6 H) as T.
  split; [exact H|]. split; [exact (proj1 T)|].
  apply (proj1 (proj2 T)). unfold returns. reflexivity.
Defined.

(** C7 at an initializer that raises and at one that never answers: the
    run of the hook ends with the first and hangs with the second. *)
Lemma JNI_OnLoad_halts_iff_witness :
  halts (run_hook throwing_initializer some_vm NULL fresh) /\
  diverges (run_hook hanging_initializer some_vm NULL fresh).
Proof.
  split.
  - apply (proj1 (proj2 (JNI_OnLoad_halts_iff nat string throwing_initializer
                           some_vm NULL fresh))).
    right. exists "initialize failed"%string. unfold throws. reflexivity.
  - apply (proj2 (proj2 (JNI_OnLoad_halts_iff nat string hanging_initializer
                           some_vm NULL fresh))).
    unfold diverges. reflexivity.
Defined.

(** * Beyond the claims *)

(** ** The preprocessor directives *)

Lemma replacement_undef_same name ms :
  replacement name (undef name ms) = None.
Proof.
  unfold undef.
  induction ms as [|[n body] rest IH]; cbn; [reflexivity|].
  destruct (String.eqb name n) eqn:E; cbn; [exact IH|].
  rewrite E. exact IH.
Qed.

Lemma replacement_undef_other name other ms :
  other <> name ->
  replacement other (undef name ms) = replacement other ms.
Proof.
  intros Hne. unfold undef.
  induction ms as [|[n body] rest IH]; cbn; [reflexivity|].
  destruct (String.eqb name n) eqn:E; cbn.
  - apply String.eqb_eq in E. subst n.
    apply String.eqb_neq in Hne. rewrite Hne. exact IH.
  - rewrite IH. reflexivity.
Qed.

Lemma undef_absent name ms :
  replacement name ms = None -> undef name ms = ms.
Proof.
  unfold undef.
  induction ms as [|[n body] rest IH]; cbn; [reflexivity|].
  destruct (String.eqb name n) eqn:E; [discriminate|].
  intros H. cbn. rewrite (IH H). reflexivity.
Qed.

Lemma undef_undef_filter a b ms :
  undef b (undef a ms) =
  filter (fun m => negb (String.eqb a (fst m)) &&
                   negb (String.eqb b (fst m)))%bool ms.
Proof.
  unfold undef.
  induction ms as [|[n body] rest IH]; cbn; [reflexivity|].
  destruct (String.eqb a n); cbn; [exact IH|].
  destruct (String.eqb b n); cbn; [exact IH|].
  rewrite IH. reflexivity.
Qed.

(** A guarded removal is the removal: the guard only spares the work. *)
Lemma ifdef_undef name ms : ifdef name (undef name) ms = undef name ms.
Proof.
  unfold ifdef, is_defined.
  destruct (replacement name ms) eqn:E; [reflexivity|].
  symmetry. apply undef_absent, E.
Qed.

Lemma undef_platform_macros_eq ms :
  undef_platform_macros ms = undef "IOS" (undef "ANDROID" ms).
Proof. unfold undef_platform_macros. cbv zeta. rewrite !ifdef_undef. reflexivity. Qed.

Lemma android_absent ms :
  replacement "ANDROID" (undef_platform_macros ms) = None.
Proof.
  rewrite undef_platform_macros_eq.
  rewrite replacement_undef_other by discriminate.
  apply replacement_undef_same.
Qed.

Lemma ios_absent ms :
  replacement "IOS" (undef_platform_macros ms) = None.
Proof. rewrite undef_platform_macros_eq. apply replacement_undef_same. Qed.

(** X1: after the directives neither ANDROID nor IOS is defined, whatever
    was defined before them (neither, one, both, or a name several times). *)
Theorem platform_macros_undefined ms :
  is_defined "ANDROID" (undef_platform_macros ms) = false /\
  is_defined "IOS" (undef_platform_macros ms) = false.
Proof.
  unfold is_defined. rewrite android_absent, ios_absent. split; reflexivity.
Qed.

(** X2: every macro with another name keeps its replacement text across the
    directives, and stays undefined if it was. *)
Theorem other_macros_kept ms name
  (Handroid : name <> "ANDROID"%string) (Hios : name <> "IOS"%string) :
  replacement name (undef_platform_macros ms) = replacement name ms.
Proof.
  rewrite undef_platform_macros_eq.
  rewrite !replacement_undef_other by assumption. reflexivity.
Qed.

(** X2 at a macro of jni.h and at a name close to the removed one. *)
Lemma other_macros_kept_witness :
  replacement "JNIEXPORT" (undef_platform_macros android_build)
  = Some "__attribute__ ((visibility (default)))"%string /\
  replacement "__ANDROID__" (undef_platform_macros android_build)
  = Some "1"%string.
Proof.
  split.
  - rewrite (other_macros_kept android_build "JNIEXPORT");
      [reflexivity | discriminate | discriminate].
  - rewrite (other_macros_kept android_build "__ANDROID__");
      [reflexivity | discriminate | discriminate].
Defined.

(** X3: the directives leave the remaining definitions in their order and
    remove nothing else: what is left is the table without the entries
    named ANDROID or IOS. *)
Theorem undef_platform_macros_filter ms :
  undef_platform_macros ms =
  filter (fun m => negb (String.eqb "ANDROID" (fst m)) &&
                   negb (String.eqb "IOS" (fst m)))%bool ms.
Proof.
  rewrite undef_platform_macros_eq. apply undef_undef_filter.
Qed.

(** X4: the directives are idempotent: a header that repeats them after
    this file changes nothing more. *)
Theorem undef_platform_macros_idempotent ms :
  undef_platform_macros (undef_platform_macros ms) = undef_platform_macros ms.
Proof.
  rewrite (undef_platform_macros_eq (undef_platform_macros ms)).
  rewrite (undef_absent "ANDROID") by apply android_absent.
  apply undef_absent, ios_absent.
Qed.

(** ** The hook, further *)

(** X5: the hook catches nothing: its run raises an exception exactly when
    the initializer's call raises that same exception. *)
Theorem JNI_OnLoad_exception_crosses (Host Exn : Type)
  (impl : JavaVM_ptr -> Host -> itree (exceptE Exn) (Host * jint))
  vm reserved p e :
  throws (run_hook impl vm reserved p) e <-> throws (impl vm (host p)) e.
Proof. apply run_throws_iff. Qed.

(** X6: the hook keeps no record of having run: invoked a second time it
    calls the initializer again, from the host state the first call left,
    and the second status is the one returned. *)
Theorem JNI_OnLoad_twice (Host Exn : Type)
  (impl : JavaVM_ptr -> Host -> itree (exceptE Exn) (Host * jint))
  vm1 reserved1 vm2 reserved2 p h1 code1 h2 code2
  (Hfirst : returns (impl vm1 (host p)) (h1, code1))
  (Hsecond : returns (impl vm2 h1) (h2, code2)) :
  returns (interp_state (h_call impl)
             (ITree.bind (JNI_OnLoad vm1 reserved1)
                         (fun _ => JNI_OnLoad vm2 reserved2)) p)
          (mkProcess h2 (calls p ++ [vm1; vm2]), code2).
Proof.
  unfold returns. rewrite interp_state_bind.
  fold (run_hook impl vm1 reserved1 p).
  pose proof (run_returns Host Exn impl vm1 reserved1 p h1 code1 Hfirst) as H1.
  unfold returns in H1. rewrite H1, bind_ret_l. cbn.
  fold (run_hook impl vm2 reserved2 (mkProcess h1 (calls p ++ [vm1]))).
  pose proof (run_returns Host Exn impl vm2 reserved2
                (mkProcess h1 (calls p ++ [vm1])) h2 code2 Hsecond) as H2.
  unfold returns in H2. rewrite H2. cbn.
  rewrite <- List.app_assoc. reflexivity.
Qed.

(** X6 at the flaky initializer: the first load fails, the second succeeds. *)
Lemma JNI_OnLoad_twice_witness :
  returns (interp_state (h_call flaky_initializer)
             (ITree.bind (JNI_OnLoad some_vm NULL)
                         (fun _ => JNI_OnLoad some_vm NULL)) fresh)
          (mkProcess 1%nat [some_vm; some_vm], JNI_VERSION_1_6).
Proof.
  apply (JNI_OnLoad_twice nat string flaky_initializer
           some_vm NULL some_vm NULL fresh 1%nat JNI_ERR 1%nat JNI_VERSION_1_6).
  - unfold returns. reflexivity.
  - unfold returns. reflexivity.
Defined.
